(** * Native POSIX counter driver: scheduling and interrupt dispatch

    A shallow embedding of [drivers/counter/counter_native_posix.c]: the
    driver's static variables become a record, the hardware counter it
    drives becomes a second record, and every driver function becomes a
    computation in a small state-and-log monad.  The log records, in program
    order, each user callback the driver invokes and each write it makes to
    the hardware, so that statements about ordering ("top before alarm") and
    about frames ("does not write the target") can be made on it.

    User callbacks are code outside the driver.  They are recorded as log
    entries and assumed to return without calling back into the driver. *)

From Stdlib Require Import ZArith NArith List Bool Lia.
Import ListNotations.
Local Open Scope Z_scope.

(** ** Unsigned 32-bit arithmetic

    [uint32_t] values are integers in [[0, 2^32)]; addition and subtraction
    wrap around. *)
Module U32.

Definition modulus : Z := 2 ^ 32.

Definition wrap (x : Z) : Z := x mod modulus.

Definition add (a b : Z) : Z := wrap (a + b).

Definition sub (a b : Z) : Z := wrap (a - b).

Definition in_range (x : Z) : Prop := 0 <= x < modulus.

End U32.

(** [TOP_VALUE] is [UINT_MAX]. *)
Definition TOP_VALUE : Z := U32.modulus - 1.

Definition DRIVER_CONFIG_INFO_CHANNELS : N := 1%N.

Definition USEC_PER_SEC : Z := 1000000.

(** Modelled from the spec: the [MIN] macro of the kernel's utility header,
    which is not part of the driver file; "the smaller of the alarm tick and
    [next_top]", by magnitude. *)
Definition MIN (a b : Z) : Z := if a <? b then a else b.

(** A bit mask test, [flags & mask] used as a C condition. *)
Definition flag_set (flags mask : Z) : bool := negb (Z.land flags mask =? 0).

(** ** Data *)

(** A function pointer is known by its address; [None] is [NULL]. *)
Definition fnptr : Type := positive.

(** [struct counter_top_cfg], with the fields the driver reads. *)
Record counter_top_cfg : Type := mk_top_cfg {
  tc_ticks : Z;
  tc_callback : option fnptr;
  tc_user_data : Z;
  tc_flags : Z
}.

(** [struct counter_alarm_cfg]. *)
Record counter_alarm_cfg : Type := mk_alarm_cfg {
  ac_callback : option fnptr;
  ac_ticks : Z;
  ac_user_data : Z;
  ac_flags : Z
}.

(** The driver's static variables. *)
Record driver : Type := mk_driver {
  pending_alarm : counter_alarm_cfg;
  is_alarm_pending : bool;
  top : counter_top_cfg;
  is_top_set : bool;
  device : Z;
  last_top : Z;
  next_top : Z
}.

(** Modelled from the spec: the hardware counter behind [hw_counter.h],
    which is not part of the driver file: a register, one comparator target,
    a running flag and the tick period. *)
Record hw_counter : Type := mk_hw {
  hw_value : Z;
  hw_target : Z;
  hw_started : bool;
  hw_period : Z
}.

Record machine : Type := mk_machine {
  drv : driver;
  hw : hw_counter;
  irq_enabled : bool
}.

Inductive errno : Type := EBUSY | ENOTSUP | EINVAL | ETIME.

(** The [int] a driver entry point returns: [0] or a negated [errno]. *)
Inductive retcode : Type :=
| Ok
| Err (e : errno).

Inductive warning : Type :=
| WarnTopWhileAlarmActive
| WarnChannelNotSupported (chan_id : N)
| WarnAlarmExceedsTop (ticks top_ticks : Z)
| WarnCounterNotStarted.

(** What the driver does to the outside, in program order. *)
Inductive event : Type :=
| EvTopCallback (f : fnptr) (dev : Z) (user_data : Z)
| EvAlarmCallback (f : fnptr) (dev : Z) (chan_id : N) (ticks : Z) (user_data : Z)
| EvSetTarget (x : Z)
| EvReset
| EvWarning (w : warning).

(** ** Field updates *)

Definition set_pending_alarm (a : counter_alarm_cfg) (d : driver) : driver :=
  mk_driver a (is_alarm_pending d) (top d) (is_top_set d) (device d)
            (last_top d) (next_top d).

Definition set_is_alarm_pending (b : bool) (d : driver) : driver :=
  mk_driver (pending_alarm d) b (top d) (is_top_set d) (device d)
            (last_top d) (next_top d).

Definition set_top (c : counter_top_cfg) (d : driver) : driver :=
  mk_driver (pending_alarm d) (is_alarm_pending d) c (is_top_set d) (device d)
            (last_top d) (next_top d).

Definition set_is_top_set (b : bool) (d : driver) : driver :=
  mk_driver (pending_alarm d) (is_alarm_pending d) (top d) b (device d)
            (last_top d) (next_top d).

Definition set_device (dev : Z) (d : driver) : driver :=
  mk_driver (pending_alarm d) (is_alarm_pending d) (top d) (is_top_set d) dev
            (last_top d) (next_top d).

Definition set_last_top (x : Z) (d : driver) : driver :=
  mk_driver (pending_alarm d) (is_alarm_pending d) (top d) (is_top_set d)
            (device d) x (next_top d).

Definition set_next_top (x : Z) (d : driver) : driver :=
  mk_driver (pending_alarm d) (is_alarm_pending d) (top d) (is_top_set d)
            (device d) (last_top d) x.

Definition set_ac_ticks (x : Z) (a : counter_alarm_cfg) : counter_alarm_cfg :=
  mk_alarm_cfg (ac_callback a) x (ac_user_data a) (ac_flags a).

Definition set_hw_value (x : Z) (h : hw_counter) : hw_counter :=
  mk_hw x (hw_target h) (hw_started h) (hw_period h).

Definition set_hw_target (x : Z) (h : hw_counter) : hw_counter :=
  mk_hw (hw_value h) x (hw_started h) (hw_period h).

Definition set_hw_started (b : bool) (h : hw_counter) : hw_counter :=
  mk_hw (hw_value h) (hw_target h) b (hw_period h).

Definition set_hw_period (p : Z) (h : hw_counter) : hw_counter :=
  mk_hw (hw_value h) (hw_target h) (hw_started h) p.

Definition on_drv (f : driver -> driver) (m : machine) : machine :=
  mk_machine (f (drv m)) (hw m) (irq_enabled m).

Definition on_hw (f : hw_counter -> hw_counter) (m : machine) : machine :=
  mk_machine (drv m) (f (hw m)) (irq_enabled m).

Definition set_irq_enabled (b : bool) (m : machine) : machine :=
  mk_machine (drv m) (hw m) b.

(** ** The monad: state passing with a log *)

Definition M (A : Type) : Type := machine -> A * machine * list event.

Definition ret {A : Type} (a : A) : M A := fun m => (a, m, []).

Definition bind {A B : Type} (c : M A) (k : A -> M B) : M B :=
  fun m =>
    match c m with
    | (a, m1, l1) =>
        match k a m1 with
        | (b, m2, l2) => (b, m2, l1 ++ l2)
        end
    end.

Declare Scope drv_scope.
Delimit Scope drv_scope with drv.
Notation "x <- c ;; k" := (bind c (fun x => k))
  (at level 61, c at next level, right associativity) : drv_scope.
Notation "c ;; k" := (bind c (fun _ => k))
  (at level 61, right associativity) : drv_scope.
Local Open Scope drv_scope.

Definition read {A : Type} (f : driver -> A) : M A :=
  fun m => (f (drv m), m, []).

Definition write (f : driver -> driver) : M unit :=
  fun m => (tt, on_drv f m, []).

Definition emit (e : event) : M unit := fun m => (tt, m, [e]).

Definition when (b : bool) (c : M unit) : M unit :=
  if b then c else ret tt.

(** Result, final state and log of a computation. *)
Definition result {A : Type} (c : M A) (m : machine) : A := fst (fst (c m)).
Definition state_after {A : Type} (c : M A) (m : machine) : machine :=
  snd (fst (c m)).
Definition log {A : Type} (c : M A) (m : machine) : list event := snd (c m).

(** ** The hardware capability

    The functions behind [hw_counter.h], the interrupt controller and the
    warning printer are used by the driver and defined elsewhere. *)

(** Modelled from the spec: [hw_counter_get_value], absent from the driver
    file; "returns the hardware register snapshot; no side effects". *)
Definition hw_counter_get_value : M Z := fun m => (hw_value (hw m), m, []).

(** Modelled from the spec: [hw_counter_set_target], absent from the driver
    file; stores the comparator target. *)
Definition hw_counter_set_target (x : Z) : M unit :=
  fun m => (tt, on_hw (set_hw_target x) m, [EvSetTarget x]).

(** Modelled from the spec: [hw_counter_reset], absent from the driver
    file; "sets register to 0". *)
Definition hw_counter_reset : M unit :=
  fun m => (tt, on_hw (set_hw_value 0) m, [EvReset]).

(** Modelled from the spec: [hw_counter_is_started], absent from the driver
    file; tells whether the counter is running. *)
Definition hw_counter_is_started : M bool :=
  fun m => (hw_started (hw m), m, []).

(** Modelled from the spec: [hw_counter_start], absent from the driver
    file. *)
Definition hw_counter_start : M unit :=
  fun m => (tt, on_hw (set_hw_started true) m, []).

(** Modelled from the spec: [hw_counter_stop], absent from the driver
    file. *)
Definition hw_counter_stop : M unit :=
  fun m => (tt, on_hw (set_hw_started false) m, []).

(** Modelled from the spec: [hw_counter_set_period], absent from the driver
    file; configuration time only. *)
Definition hw_counter_set_period (p : Z) : M unit :=
  fun m => (tt, on_hw (set_hw_period p) m, []).

(** Modelled from the spec: [irq_enable] on the counter's interrupt line,
    absent from the driver file; "unmasks the match interrupt". *)
Definition irq_enable : M unit :=
  fun m => (tt, set_irq_enabled true m, []).

(** Modelled from the spec: [posix_print_warning], absent from the driver
    file; the message is logged and nothing else changes. *)
Definition posix_print_warning (w : warning) : M unit := emit (EvWarning w).

(** ** The interrupt handler *)

(** [if (top.callback) top.callback(device, top.user_data);] *)
Definition call_top_callback (d : driver) : M unit :=
  match tc_callback (top d) with
  | Some f => emit (EvTopCallback f (device d) (tc_user_data (top d)))
  | None => ret tt
  end.

(** [if (pending_alarm.callback) pending_alarm.callback(device, 0,
    current_value, pending_alarm.user_data);] *)
Definition call_alarm_callback (d : driver) (current_value : Z) : M unit :=
  match ac_callback (pending_alarm d) with
  | Some f =>
      emit (EvAlarmCallback f (device d) 0%N current_value
                            (ac_user_data (pending_alarm d)))
  | None => ret tt
  end.

(** First block of [counter_isr]: the top check. *)
Definition isr_top_check (current_value : Z) : M unit :=
  d <- read id ;;
  when (is_top_set d
        && (current_value =? U32.add (last_top d) (tc_ticks (top d))))
       (call_top_callback d ;;
        write (set_last_top current_value) ;;
        write (set_next_top (U32.add current_value (tc_ticks (top d)))) ;;
        nt <- read next_top ;;
        lt <- read last_top ;;
        if nt <? lt
        then hw_counter_set_target TOP_VALUE
        else hw_counter_set_target nt).

(** Second block: the alarm check. *)
Definition isr_alarm_check (current_value : Z) : M unit :=
  d <- read id ;;
  when (is_alarm_pending d
        && (current_value =? ac_ticks (pending_alarm d)))
       (write (set_is_alarm_pending false) ;;
        call_alarm_callback d current_value).

(** Third block: rollover when [TOP_VALUE] is reached, then the next
    target. *)
Definition isr_rollover_check (current_value : Z) : M unit :=
  when (current_value =? TOP_VALUE)
       (hw_counter_reset ;;
        d <- read id ;;
        if is_alarm_pending d && is_top_set d
        then hw_counter_set_target (MIN (ac_ticks (pending_alarm d)) (next_top d))
        else if is_alarm_pending d
        then hw_counter_set_target (ac_ticks (pending_alarm d))
        else if is_top_set d
        then hw_counter_set_target (next_top d)
        else hw_counter_set_target TOP_VALUE).

Definition counter_isr : M unit :=
  current_value <- hw_counter_get_value ;;
  isr_top_check current_value ;;
  isr_alarm_check current_value ;;
  isr_rollover_check current_value.

(** ** The driver API *)

Definition ctr_start : M retcode := hw_counter_start ;; ret Ok.

Definition ctr_stop : M retcode := hw_counter_stop ;; ret Ok.

Definition ctr_get_value : M (retcode * Z) :=
  ticks <- hw_counter_get_value ;; ret (Ok, ticks).

Definition ctr_get_top_value : M Z := read (fun d => tc_ticks (top d)).

Definition ctr_get_pending_int : M Z := ret 0.

Definition ctr_cancel_alarm (chan_id : N) : M retcode :=
  if (DRIVER_CONFIG_INFO_CHANNELS <=? chan_id)%N
  then posix_print_warning (WarnChannelNotSupported chan_id) ;;
       ret (Err ENOTSUP)
  else
    started <- hw_counter_is_started ;;
    if negb started
    then posix_print_warning WarnCounterNotStarted ;; ret (Err ENOTSUP)
    else write (set_is_alarm_pending false) ;; ret Ok.

Section Configuration.

(** The flag masks of the counter API header and the configured counter
    frequency are not part of the driver file; the driver is modelled for
    any values of them. *)
Variable COUNTER_TOP_CFG_DONT_RESET : Z.
Variable COUNTER_TOP_CFG_RESET_WHEN_LATE : Z.
Variable COUNTER_ALARM_CFG_ABSOLUTE : Z.
Variable CONFIG_COUNTER_NATIVE_POSIX_FREQUENCY : Z.

Definition COUNTER_PERIOD : Z :=
  USEC_PER_SEC / CONFIG_COUNTER_NATIVE_POSIX_FREQUENCY.

Definition ctr_init (dev : Z) : M retcode :=
  write (set_device dev) ;;
  write (set_is_alarm_pending false) ;;
  write (set_is_top_set false) ;;
  hw_counter_set_period COUNTER_PERIOD ;;
  hw_counter_set_target TOP_VALUE ;;
  ret Ok.

(** The tail of [ctr_set_top_value], from [top = *cfg] on. *)
Definition store_top (cfg : counter_top_cfg) (current_value : Z) : M retcode :=
  write (set_top cfg) ;;
  write (set_last_top current_value) ;;
  (if negb (tc_ticks cfg =? TOP_VALUE)
      && match tc_callback cfg with Some _ => true | None => false end
   then
     write (set_is_top_set true) ;;
     hw_counter_set_target (U32.add current_value (tc_ticks cfg)) ;;
     irq_enable
   else write (set_is_top_set false)) ;;
  ret Ok.

Definition ctr_set_top_value (cfg : counter_top_cfg) : M retcode :=
  pending <- read is_alarm_pending ;;
  if pending
  then posix_print_warning WarnTopWhileAlarmActive ;; ret (Err EBUSY)
  else
    current_value <- hw_counter_get_value ;;
    if flag_set (tc_flags cfg) COUNTER_TOP_CFG_DONT_RESET
    then
      if tc_ticks cfg <=? current_value
      then
        when (flag_set (tc_flags cfg) COUNTER_TOP_CFG_RESET_WHEN_LATE)
             hw_counter_reset ;;
        ret (Err ETIME)
      else store_top cfg current_value
    else hw_counter_reset ;; store_top cfg current_value.

Definition ctr_set_alarm (chan_id : N) (alarm_cfg : counter_alarm_cfg)
  : M retcode :=
  if (DRIVER_CONFIG_INFO_CHANNELS <=? chan_id)%N
  then posix_print_warning (WarnChannelNotSupported chan_id) ;;
       ret (Err ENOTSUP)
  else
    pending <- read is_alarm_pending ;;
    if pending
    then ret (Err EBUSY)
    else
      current_value <- hw_counter_get_value ;;
      let ticks :=
        if negb (flag_set (ac_flags alarm_cfg) COUNTER_ALARM_CFG_ABSOLUTE)
        then U32.add (ac_ticks alarm_cfg) current_value
        else ac_ticks alarm_cfg in
      d <- read id ;;
      if is_top_set d
         && (U32.sub (tc_ticks (top d)) current_value
             <? U32.sub ticks current_value)
      then posix_print_warning (WarnAlarmExceedsTop ticks (tc_ticks (top d))) ;;
           ret (Err EINVAL)
      else
        write (set_pending_alarm alarm_cfg) ;;
        write (fun d => set_pending_alarm (set_ac_ticks ticks (pending_alarm d)) d) ;;
        write (set_is_alarm_pending true) ;;
        (if U32.sub TOP_VALUE current_value <? U32.sub ticks current_value
         then hw_counter_set_target TOP_VALUE
         else
           t <- read (fun d => ac_ticks (pending_alarm d)) ;;
           hw_counter_set_target t) ;;
        irq_enable ;;
        ret Ok.

End Configuration.

(** ** Notions the properties are stated with *)

(** Wraparound distance from the counter value [v] forward to [x]. *)
Definition dist (v x : Z) : Z := U32.sub x v.

(** The comparator writes of a log, in order. *)
Fixpoint target_writes (l : list event) : list Z :=
  match l with
  | [] => []
  | EvSetTarget x :: l' => x :: target_writes l'
  | _ :: l' => target_writes l'
  end.

(** The callback invocations of a log, in order. *)
Fixpoint callbacks (l : list event) : list event :=
  match l with
  | [] => []
  | EvTopCallback f dev ud :: l' => EvTopCallback f dev ud :: callbacks l'
  | EvAlarmCallback f dev ch t ud :: l' =>
      EvAlarmCallback f dev ch t ud :: callbacks l'
  | _ :: l' => callbacks l'
  end.

(** The register resets of a log, counted. *)
Fixpoint resets (l : list event) : nat :=
  match l with
  | [] => O
  | EvReset :: l' => S (resets l')
  | _ :: l' => resets l'
  end.

(** [t] is, among [cs], a value of least wraparound distance from [v]. *)
Definition earliest_among (v : Z) (cs : list Z) (t : Z) : Prop :=
  In t cs /\ forall c, In c cs -> dist v t <= dist v c.

(** The ticks at which something is due: the pending alarm, the next top,
    the rollover. *)
Definition candidates (m : machine) : list Z :=
  (if is_alarm_pending (drv m) then [ac_ticks (pending_alarm (drv m))] else [])
  ++ (if is_top_set (drv m) then [next_top (drv m)] else [])
  ++ [TOP_VALUE].

Definition target_is_earliest (m : machine) : Prop :=
  earliest_among (hw_value (hw m)) (candidates m) (hw_target (hw m)).

(** The counter, ticking on its own, reaches [v]. *)
Definition advance_to (v : Z) (m : machine) : machine :=
  on_hw (set_hw_value v) m.

(** The top check of the handler fires at [v]. *)
Definition top_due (v : Z) (m : machine) : bool :=
  is_top_set (drv m)
  && (v =? U32.add (last_top (drv m)) (tc_ticks (top (drv m)))).

(** The zero-initialised statics and a stopped counter at 0. *)
Definition boot : machine :=
  mk_machine
    (mk_driver (mk_alarm_cfg None 0 0 0) false (mk_top_cfg 0 None 0 0) false
               0 0 0)
    (mk_hw 0 0 false 0)
    false.

(** The absolute tick [ctr_set_alarm] derives from a request made at the
    counter value [v]: a relative request is added to [v]. *)
Definition alarm_tick (ABSOLUTE : Z) (v : Z) (alarm_cfg : counter_alarm_cfg)
  : Z :=
  if negb (flag_set (ac_flags alarm_cfg) ABSOLUTE)
  then U32.add (ac_ticks alarm_cfg) v
  else ac_ticks alarm_cfg.

(** The target the top check programs when the top fires at [v]. *)
Definition top_check_target (v : Z) (m : machine) : Z :=
  let nt := U32.add v (tc_ticks (top (drv m))) in
  if nt <? v then TOP_VALUE else nt.

(** *** Two readings that the code does not satisfy *)


(** Off the rollover, neither the top check nor the alarm check writes the
    comparator. *)
Definition top_and_alarm_checks_leave_target (m : machine) : Prop :=
  let v := hw_value (hw m) in
  v <> TOP_VALUE ->
  target_writes (log (isr_top_check v) m) = []
  /\ target_writes
       (log (isr_alarm_check v) (state_after (isr_top_check v) m)) = [].

(** *** Concrete runs *)

(** The values the counter API header gives the masks: [BIT(0)], [BIT(1)]
    and [BIT(0)]. *)
Definition api_DONT_RESET : Z := 1.
Definition api_RESET_WHEN_LATE : Z := 2.
Definition api_ABSOLUTE : Z := 1.

(** Initialised and started, counter at 0. *)
Definition started : machine :=
  state_after ctr_start (state_after (ctr_init 1000000 1) boot).

(** A top of period 100 configured at counter value 0. *)
Definition with_top_100 : machine :=
  state_after
    (ctr_set_top_value api_DONT_RESET api_RESET_WHEN_LATE
                       (mk_top_cfg 100 (Some 1%positive) 0 0))
    started.

(** An absolute alarm at tick 50 set at counter value 0, no top. *)
Definition with_alarm_50 : machine :=
  state_after
    (ctr_set_alarm api_ABSOLUTE 0%N
                   (mk_alarm_cfg (Some 2%positive) 50 0 api_ABSOLUTE))
    started.

(** The top of period 100 with an absolute alarm at tick 100 set on it. *)
Definition with_top_and_alarm_100 : machine :=
  state_after
    (ctr_set_alarm api_ABSOLUTE 0%N
                   (mk_alarm_cfg (Some 2%positive) 100 0 api_ABSOLUTE))
    with_top_100.

(** At the rollover: an alarm pending at tick 7, a top with [next_top] 5. *)
Definition at_rollover : machine :=
  mk_machine
    (mk_driver (mk_alarm_cfg (Some 2%positive) 7 0 api_ABSOLUTE) true
               (mk_top_cfg 10 (Some 1%positive) 0 0) true
               1 4294967291 5)
    (mk_hw TOP_VALUE TOP_VALUE true 1)
    true.

(** *** Runs of the driver *)

(** The top callback invocations of a log, in order. *)
Fixpoint top_callbacks (l : list event) : list event :=
  match l with
  | [] => []
  | EvTopCallback f dev ud :: l' => EvTopCallback f dev ud :: top_callbacks l'
  | _ :: l' => top_callbacks l'
  end.

(** The alarm callback invocations of a log, in order. *)
Fixpoint alarm_callbacks (l : list event) : list event :=
  match l with
  | [] => []
  | EvAlarmCallback f dev ch t ud :: l' =>
      EvAlarmCallback f dev ch t ud :: alarm_callbacks l'
  | _ :: l' => alarm_callbacks l'
  end.

(** The alarm check of the handler fires at [v]. *)
Definition alarm_due (v : Z) (m : machine) : bool :=
  is_alarm_pending (drv m) && (v =? ac_ticks (pending_alarm (drv m))).

(** What can happen to the machine: a call of an API function, a run of the
    interrupt handler, or the counter moving on to some value. *)
Inductive action : Type :=
| DoInit (dev : Z)
| DoStart
| DoStop
| DoSetTopValue (cfg : counter_top_cfg)
| DoSetAlarm (chan_id : N) (alarm_cfg : counter_alarm_cfg)
| DoCancelAlarm (chan_id : N)
| DoIsr
| DoCount (v : Z).

Definition do_action (DONT_RESET RESET_WHEN_LATE ABSOLUTE FREQUENCY : Z)
           (a : action) (m : machine) : machine :=
  match a with
  | DoInit dev => state_after (ctr_init FREQUENCY dev) m
  | DoStart => state_after ctr_start m
  | DoStop => state_after ctr_stop m
  | DoSetTopValue cfg =>
      state_after (ctr_set_top_value DONT_RESET RESET_WHEN_LATE cfg) m
  | DoSetAlarm chan_id alarm_cfg =>
      state_after (ctr_set_alarm ABSOLUTE chan_id alarm_cfg) m
  | DoCancelAlarm chan_id => state_after (ctr_cancel_alarm chan_id) m
  | DoIsr => state_after counter_isr m
  | DoCount v => advance_to v m
  end.

Fixpoint do_actions (DONT_RESET RESET_WHEN_LATE ABSOLUTE FREQUENCY : Z)
         (l : list action) (m : machine) : machine :=
  match l with
  | [] => m
  | a :: l' =>
      do_actions DONT_RESET RESET_WHEN_LATE ABSOLUTE FREQUENCY l'
                 (do_action DONT_RESET RESET_WHEN_LATE ABSOLUTE FREQUENCY a m)
  end.

(** An action hands the driver 32-bit values only. *)
Definition action_in_range (a : action) : Prop :=
  match a with
  | DoSetTopValue cfg => U32.in_range (tc_ticks cfg)
  | DoSetAlarm _ alarm_cfg => U32.in_range (ac_ticks alarm_cfg)
  | DoCount v => U32.in_range v
  | _ => True
  end.

(** Every tick the machine holds is a 32-bit value. *)
Definition ticks_in_range (m : machine) : Prop :=
  U32.in_range (hw_value (hw m))
  /\ U32.in_range (hw_target (hw m))
  /\ U32.in_range (ac_ticks (pending_alarm (drv m)))
  /\ U32.in_range (tc_ticks (top (drv m)))
  /\ U32.in_range (last_top (drv m))
  /\ U32.in_range (next_top (drv m)).

(** An active top has a callback and a period other than [TOP_VALUE]. *)
Definition active_top_is_usable (m : machine) : Prop :=
  is_top_set (drv m) = true ->
  tc_callback (top (drv m)) <> None /\ tc_ticks (top (drv m)) <> TOP_VALUE.

(** [n] top periods in a row: each time the counter reaches the tick the
    top is due at and the handler runs there.  The logs are concatenated. *)
Fixpoint top_periods (n : nat) (m : machine) : machine * list event :=
  match n with
  | O => (m, [])
  | S k =>
      let due := U32.add (last_top (drv m)) (tc_ticks (top (drv m))) in
      let m1 := advance_to due m in
      let r := top_periods k (state_after counter_isr m1) in
      (fst r, log counter_isr m1 ++ snd r)
  end.

(** Whenever the driver waits for an alarm or a top, the counter interrupt
    is enabled. *)
Definition armed_with_irq (m : machine) : Prop :=
  is_alarm_pending (drv m) = true \/ is_top_set (drv m) = true ->
  irq_enabled m = true.

(** *** Runs that show the comparator losing an event *)

(** A machine initialised from the zeroed statics. *)
Definition initialised : machine := state_after (ctr_init 1000000 1) boot.

Definition run_api : list action -> machine -> machine :=
  do_actions api_DONT_RESET api_RESET_WHEN_LATE api_ABSOLUTE 1000000.

(** A top of period 100 is set at 0; at 10 an absolute alarm is set at tick
    50; the counter reaches 50, the programmed match. *)
Definition alarm_inside_period : machine :=
  run_api [DoStart;
           DoSetTopValue (mk_top_cfg 100 (Some 1%positive) 0 0);
           DoCount 10;
           DoSetAlarm 0%N (mk_alarm_cfg (Some 2%positive) 50 0 api_ABSOLUTE);
           DoCount 50]
          initialised.

(** A top of period 100 is set at 0 and fires at 100, so the next one is
    due at 200; the counter stands at 150. *)
Definition top_fired_once : machine :=
  run_api [DoStart;
           DoSetTopValue (mk_top_cfg 100 (Some 1%positive) 0 0);
           DoCount 100;
           DoIsr;
           DoCount 150]
          initialised.

(** A top of period 100 is set at 2^31 (the register restarts from 0, the
    top is due at 2^31 + 100); at 150 an absolute alarm is set at tick 50,
    which lies beyond the rollover; the counter reaches [TOP_VALUE], the
    programmed match. *)
Definition alarm_beyond_rollover : machine :=
  run_api [DoStart;
           DoCount 2147483648;
           DoSetTopValue (mk_top_cfg 100 (Some 1%positive) 0 0);
           DoCount 150;
           DoSetAlarm 0%N (mk_alarm_cfg (Some 2%positive) 50 0 api_ABSOLUTE);
           DoCount TOP_VALUE]
          initialised.

(** ** Proof support *)

Arguments U32.add : simpl never.
Arguments U32.sub : simpl never.
Arguments U32.wrap : simpl never.
Arguments TOP_VALUE : simpl never.
Arguments MIN : simpl never.
Arguments dist : simpl never.
Arguments flag_set : simpl never.

Ltac unfold_drv :=
  unfold result, state_after, log,
    counter_isr, isr_top_check, isr_alarm_check, isr_rollover_check,
    call_top_callback, call_alarm_callback,
    ctr_cancel_alarm, ctr_set_alarm, ctr_set_top_value, store_top, ctr_init,
    hw_counter_get_value, hw_counter_set_target, hw_counter_reset,
    hw_counter_is_started, irq_enable, posix_print_warning,
    top_due, advance_to,
    bind, when, read, write, emit, ret in *.

Ltac open_machine m :=
  destruct m as [[[a_cb a_ticks a_ud a_fl] pend [period t_cb t_ud t_fl]
                  tset dev lt nt]
                 [hv ht hs hp] irq];
  cbn [drv hw irq_enabled pending_alarm is_alarm_pending top is_top_set
       device last_top next_top hw_value hw_target hw_started hw_period
       tc_ticks tc_callback tc_user_data tc_flags
       ac_callback ac_ticks ac_user_data ac_flags] in *.

(** The leftmost test of a C condition. *)
Ltac first_test b :=
  lazymatch b with
  | andb ?x _ => first_test x
  | negb ?x => first_test x
  | _ => constr:(b)
  end.

(** Case analysis on every test the code makes, innermost first. *)
Ltac split_tests :=
  repeat (cbn;
          match goal with
          | |- context [if ?b then _ else _] =>
              lazymatch b with
              | context [if _ then _ else _] => fail
              | _ => let t := first_test b in destruct t eqn:?
              end
          | |- context [match ?o with Some _ => _ | None => _ end] =>
              lazymatch o with
              | context [if _ then _ else _] => fail
              | _ => destruct o eqn:?
              end
          end);
  cbn.

(** Close a case whose recorded tests contradict each other. *)
Ltac absurd_tests :=
  repeat match goal with
         | H : (?x =? ?x) = false |- _ => rewrite Z.eqb_refl in H
         | H : true = false |- _ => discriminate H
         | H : false = true |- _ => discriminate H
         | H : Some _ = None |- _ => discriminate H
         | H : None = Some _ |- _ => discriminate H
         end.

(** Turn the recorded tests on integers into propositions. *)
Ltac tests_to_props :=
  repeat match goal with
         | H : (_ =? _) = true |- _ => apply Z.eqb_eq in H
         | H : (_ =? _) = false |- _ => apply Z.eqb_neq in H
         | H : (_ <? _) = true |- _ => apply Z.ltb_lt in H
         | H : (_ <? _) = false |- _ => apply Z.ltb_ge in H
         | H : (_ <=? _) = true |- _ => apply Z.leb_le in H
         | H : (_ <=? _) = false |- _ => apply Z.leb_gt in H
         end.

Lemma modulus_value : U32.modulus = 4294967296.
Proof. reflexivity. Qed.

Lemma TOP_VALUE_value : TOP_VALUE = 4294967295.
Proof. reflexivity. Qed.

Lemma wrap_small x : U32.in_range x -> U32.wrap x = x.
Proof. unfold U32.in_range, U32.wrap. intros H. apply Z.mod_small. exact H. Qed.

Lemma wrap_in_range x : U32.in_range (U32.wrap x).
Proof.
  unfold U32.in_range, U32.wrap. apply Z.mod_pos_bound.
  rewrite modulus_value. lia.
Qed.

Section Properties.

Variable COUNTER_TOP_CFG_DONT_RESET : Z.
Variable COUNTER_TOP_CFG_RESET_WHEN_LATE : Z.
Variable COUNTER_ALARM_CFG_ABSOLUTE : Z.

Abbreviation set_top_value :=
  (ctr_set_top_value COUNTER_TOP_CFG_DONT_RESET
                     COUNTER_TOP_CFG_RESET_WHEN_LATE).
Abbreviation set_alarm := (ctr_set_alarm COUNTER_ALARM_CFG_ABSOLUTE).

(** C6: with a top active and the snapshot [v] equal to
    [last_top + period] (mod 2^32), after the top check of the handler
    [last_top] is exactly [v], [next_top] is [v + period] (mod 2^32) and the
    top record is still set and unchanged; the same holds after the whole
    handler. *)
Theorem top_check_records_snapshot (m : machine) (v : Z) :
  is_top_set (drv m) = true ->
  hw_value (hw m) = v ->
  v = U32.add (last_top (drv m)) (tc_ticks (top (drv m))) ->
  (let m' := state_after (isr_top_check v) m in
   last_top (drv m') = v
   /\ next_top (drv m') = U32.add v (tc_ticks (top (drv m)))
   /\ is_top_set (drv m') = true
   /\ top (drv m') = top (drv m))
  /\ (let m' := state_after counter_isr m in
      last_top (drv m') = v
      /\ next_top (drv m') = U32.add v (tc_ticks (top (drv m)))
      /\ is_top_set (drv m') = true
      /\ top (drv m') = top (drv m)).
Proof.
  intros Hset Hv Hdue. open_machine m. subst.
  unfold_drv. cbn. rewrite Z.eqb_refl.
  split; split_tests; auto.
Qed.

(** C7: while an alarm is pending, [set_alarm] on the valid channel and
    [set_top_value] both return [EBUSY], and the whole machine (stored
    alarm, top configuration, hardware target, everything else) is as
    before; no comparator write is made. *)
Theorem busy_while_alarm_pending (m : machine) :
  is_alarm_pending (drv m) = true ->
  (forall chan_id alarm_cfg,
      (chan_id < DRIVER_CONFIG_INFO_CHANNELS)%N ->
      result (set_alarm chan_id alarm_cfg) m = Err EBUSY
      /\ state_after (set_alarm chan_id alarm_cfg) m = m
      /\ target_writes (log (set_alarm chan_id alarm_cfg) m) = [])
  /\ (forall cfg,
         result (set_top_value cfg) m = Err EBUSY
         /\ state_after (set_top_value cfg) m = m
         /\ target_writes (log (set_top_value cfg) m) = []).
Proof.
  intros Hpend. split.
  - intros chan_id alarm_cfg Hchan.
    apply N.leb_gt in Hchan.
    unfold result, state_after, log, ctr_set_alarm. rewrite Hchan.
    unfold bind, read, ret. cbn. rewrite Hpend. cbn. auto.
  - intros cfg.
    unfold result, state_after, log, ctr_set_top_value.
    unfold bind, read, ret, posix_print_warning, emit. cbn.
    rewrite Hpend. cbn. auto.
Qed.

(** C8: with no alarm pending, a configuration that has the don't-reset
    flag and a period not above the current value [v] makes [set_top_value]
    return [ETIME] and store nothing in the driver; the register is reset
    (once, to 0) exactly when the reset-when-late flag is set too, and is
    left at [v] otherwise; the comparator is not written. *)
Theorem set_top_value_too_late (m : machine) (cfg : counter_top_cfg) :
  is_alarm_pending (drv m) = false ->
  flag_set (tc_flags cfg) COUNTER_TOP_CFG_DONT_RESET = true ->
  tc_ticks cfg <= hw_value (hw m) ->
  let late := flag_set (tc_flags cfg) COUNTER_TOP_CFG_RESET_WHEN_LATE in
  let m' := state_after (set_top_value cfg) m in
  result (set_top_value cfg) m = Err ETIME
  /\ drv m' = drv m
  /\ (In EvReset (log (set_top_value cfg) m) <-> late = true)
  /\ resets (log (set_top_value cfg) m) = (if late then 1%nat else 0%nat)
  /\ hw_value (hw m') = (if late then 0 else hw_value (hw m))
  /\ hw_target (hw m') = hw_target (hw m)
  /\ target_writes (log (set_top_value cfg) m) = [].
Proof.
  intros Hpend Hdont Hlate. apply Z.leb_le in Hlate.
  unfold result, state_after, log, ctr_set_top_value.
  unfold bind, read, hw_counter_get_value. cbn.
  rewrite Hpend. cbn. rewrite Hdont, Hlate.
  unfold when, hw_counter_reset, ret.
  destruct (flag_set (tc_flags cfg) COUNTER_TOP_CFG_RESET_WHEN_LATE); cbn.
  - repeat split; auto.
  - repeat split; auto; try tauto; try discriminate.
Qed.

(** C9: [cancel_alarm] returns [ENOTSUP] exactly when the channel is not
    the single supported one or the counter is not running; in every other
    case it returns 0, clears the pending flag, changes nothing else and
    makes no hardware write. *)
Theorem cancel_alarm_unsupported_iff (m : machine) (chan_id : N) :
  let r := result (ctr_cancel_alarm chan_id) m in
  let m' := state_after (ctr_cancel_alarm chan_id) m in
  (r = Err ENOTSUP
   <-> (DRIVER_CONFIG_INFO_CHANNELS <= chan_id)%N
       \/ hw_started (hw m) = false)
  /\ (r <> Err ENOTSUP ->
      r = Ok
      /\ is_alarm_pending (drv m') = false
      /\ m' = on_drv (set_is_alarm_pending false) m
      /\ hw m' = hw m
      /\ target_writes (log (ctr_cancel_alarm chan_id) m) = []
      /\ log (ctr_cancel_alarm chan_id) m = []).
Proof.
  unfold result, state_after, log, ctr_cancel_alarm.
  destruct (N.leb_spec DRIVER_CONFIG_INFO_CHANNELS chan_id) as [Hc | Hc].
  - cbn. split; [tauto | congruence].
  - unfold bind, hw_counter_is_started, write, ret, posix_print_warning, emit.
    cbn. destruct (hw_started (hw m)); cbn.
    + split.
      * split; [discriminate | intros [H | H]; [lia | discriminate]].
      * intros _. repeat split.
    + split; [tauto | congruence].
Qed.

(** C10: on the valid channel with the counter running, [cancel_alarm]
    returns 0 whether or not an alarm is pending, and a second call right
    after the first returns 0 again and leaves the machine exactly as the
    first call left it. *)
Theorem cancel_alarm_idempotent (m : machine) (chan_id : N) :
  (chan_id < DRIVER_CONFIG_INFO_CHANNELS)%N ->
  hw_started (hw m) = true ->
  let m1 := state_after (ctr_cancel_alarm chan_id) m in
  result (ctr_cancel_alarm chan_id) m = Ok
  /\ is_alarm_pending (drv m1) = false
  /\ result (ctr_cancel_alarm chan_id) m1 = Ok
  /\ state_after (ctr_cancel_alarm chan_id) m1 = m1.
Proof.
  intros Hchan Hrun. apply N.leb_gt in Hchan.
  unfold result, state_after, ctr_cancel_alarm. rewrite Hchan.
  unfold bind, hw_counter_is_started, write, ret. cbn.
  rewrite Hrun. cbn. rewrite Hrun. cbn. auto.
Qed.

(** C4: with a top active, an alarm pending, both callbacks present, the
    alarm tick equal to the tick the top is due at ([last_top + period],
    mod 2^32) and the snapshot [v] equal to that tick, one run of the
    handler invokes exactly the top callback and then the alarm callback,
    and clears the pending flag.  A further run of the handler, at any
    snapshot [v'], invokes no alarm callback at all (nothing re-armed it),
    and invokes the top callback only at the next period's tick
    [v + period]; so a second run at the same [v] invokes nothing unless the
    period is 0 (mod 2^32), where the next period is due at once. *)
Theorem coinciding_top_and_alarm_single_delivery
        (m : machine) (f g : fnptr) :
  is_top_set (drv m) = true ->
  is_alarm_pending (drv m) = true ->
  tc_callback (top (drv m)) = Some f ->
  ac_callback (pending_alarm (drv m)) = Some g ->
  ac_ticks (pending_alarm (drv m))
  = U32.add (last_top (drv m)) (tc_ticks (top (drv m))) ->
  hw_value (hw m) = ac_ticks (pending_alarm (drv m)) ->
  let v := hw_value (hw m) in
  let P := tc_ticks (top (drv m)) in
  let top_cb := EvTopCallback f (device (drv m)) (tc_user_data (top (drv m))) in
  let alarm_cb :=
    EvAlarmCallback g (device (drv m)) 0%N v
                    (ac_user_data (pending_alarm (drv m))) in
  let m1 := state_after counter_isr m in
  callbacks (log counter_isr m) = [top_cb; alarm_cb]
  /\ is_alarm_pending (drv m1) = false
  /\ (forall v',
         callbacks (log counter_isr (advance_to v' m1))
         = if v' =? U32.add v P then [top_cb] else [])
  /\ (U32.wrap P <> 0 -> callbacks (log counter_isr (advance_to v m1)) = []).
Proof.
  intros Hset Hpend Hf Hg Htick Hv.
  assert (Hsame : U32.wrap (tc_ticks (top (drv m))) <> 0 ->
                  hw_value (hw m)
                  <> U32.add (hw_value (hw m)) (tc_ticks (top (drv m)))).
  { rewrite Hv, Htick. unfold U32.add, U32.wrap. rewrite modulus_value.
    intros Hp He. apply Hp. clear - He.
    Z.div_mod_to_equations. lia. }
  open_machine m. subst. unfold_drv. cbn.
  repeat split.
  - split_tests; absurd_tests; reflexivity.
  - split_tests; absurd_tests; reflexivity.
  - intros v'. split_tests; absurd_tests; reflexivity.
  - intros Hp. apply Hsame, Z.eqb_neq in Hp.
    split_tests; absurd_tests; try reflexivity; congruence.
Qed.


(** C3, as the code has it: at a snapshot [v <> TOP_VALUE] the alarm check
    and the rollover check make no comparator write, whatever the state;
    the top check makes exactly one when the top fires, programming
    [next_top], or [TOP_VALUE] if [next_top] wrapped below [v], and none
    when it does not fire; these are all the writes of the handler. *)
Theorem isr_target_writes_off_rollover (m : machine) :
  let v := hw_value (hw m) in
  v <> TOP_VALUE ->
  (forall m0, target_writes (log (isr_alarm_check v) m0) = [])
  /\ (forall m0, target_writes (log (isr_rollover_check v) m0) = [])
  /\ target_writes (log (isr_top_check v) m)
     = (if top_due v m then [top_check_target v m] else [])
  /\ target_writes (log counter_isr m)
     = (if top_due v m then [top_check_target v m] else []).
Proof.
  intros v Hv. subst v. apply Z.eqb_neq in Hv.
  split; [| split; [| split]].
  - intros m0. open_machine m0. unfold_drv. split_tests; reflexivity.
  - intros m0. unfold_drv. rewrite Hv. reflexivity.
  - open_machine m. unfold top_check_target. unfold_drv.
    split_tests; reflexivity.
  - open_machine m. unfold top_check_target. unfold_drv. cbn. rewrite Hv.
    split_tests; reflexivity.
Qed.

End Properties.

(** ** Readings refuted and defects shown on concrete runs *)


(** C2 holds of the intent and not of the code.  Two runs from
    [ctr_init] leave the comparator on a value that is not the nearest
    event.  In the first a top of period 100 is active, due at 100, and
    the handler runs at the match 50 of an alarm set inside the period:
    the alarm fires, the handler writes no target, and the comparator
    stays at 50, the tick that has just passed, so the top at 100 raises
    no interrupt.  In the second the top has fired once and is due again
    at 200; [ctr_set_alarm] at 150 for tick 250 is accepted and programs
    250, passing over the top at 200 that is 50 ticks away. *)
Lemma comparator_loses_armed_top :
  (let m := alarm_inside_period in
   let m' := state_after counter_isr m in
   hw_value (hw m) = 50 /\ hw_target (hw m) = 50
   /\ is_top_set (drv m') = true
   /\ U32.add (last_top (drv m')) (tc_ticks (top (drv m'))) = 100
   /\ is_alarm_pending (drv m') = false
   /\ log counter_isr m = [EvAlarmCallback 2%positive 1 0%N 50 0]
   /\ hw_target (hw m') = 50
   /\ ~ target_is_earliest m')
  /\ (let m := top_fired_once in
      let request := mk_alarm_cfg (Some 2%positive) 250 0 api_ABSOLUTE in
      let m' := state_after (ctr_set_alarm api_ABSOLUTE 0%N request) m in
      hw_value (hw m) = 150 /\ hw_target (hw m) = 200
      /\ target_is_earliest m
      /\ result (ctr_set_alarm api_ABSOLUTE 0%N request) m = Ok
      /\ is_top_set (drv m') = true
      /\ next_top (drv m') = 200
      /\ U32.add (last_top (drv m')) (tc_ticks (top (drv m'))) = 200
      /\ hw_target (hw m') = 250
      /\ dist 150 200 < dist 150 250
      /\ ~ target_is_earliest m').
Proof.
  split.
  - intros m m'.
    repeat (split; [vm_compute; reflexivity |]).
    assert (Hc : candidates m' = [0; TOP_VALUE]) by (vm_compute; reflexivity).
    assert (Ht : hw_target (hw m') = 50) by (vm_compute; reflexivity).
    unfold target_is_earliest, earliest_among. rewrite Hc, Ht.
    intros [[Hin | [Hin | []]] _].
    + discriminate Hin.
    + rewrite TOP_VALUE_value in Hin. discriminate Hin.
  - intros m request m'.
    assert (Hc : candidates m = [200; TOP_VALUE]) by (vm_compute; reflexivity).
    assert (Hv : hw_value (hw m) = 150) by (vm_compute; reflexivity).
    assert (Ht : hw_target (hw m) = 200) by (vm_compute; reflexivity).
    assert (Hc' : candidates m' = [250; 200; TOP_VALUE])
      by (vm_compute; reflexivity).
    assert (Hv' : hw_value (hw m') = 150) by (vm_compute; reflexivity).
    assert (Ht' : hw_target (hw m') = 250) by (vm_compute; reflexivity).
    assert (Hnear : dist 150 200 < dist 150 250) by (vm_compute; reflexivity).
    split; [exact Hv |]. split; [exact Ht |].
    split.
    { unfold target_is_earliest, earliest_among. rewrite Hc, Hv, Ht.
      split; [left; reflexivity |].
      intros c [<- | [<- | []]]; vm_compute; discriminate. }
    repeat (split; [vm_compute; reflexivity |]).
    unfold target_is_earliest, earliest_among. rewrite Hc', Hv', Ht'.
    intros [_ Hmin].
    specialize (Hmin 200 (or_intror (or_introl eq_refl))).
    apply Z.lt_nge in Hnear. exact (Hnear Hmin).
Qed.

(** C5 holds of the intent and not of the code.  On a run from
    [ctr_init] the handler is entered at the match [v = TOP_VALUE] with an
    alarm pending at distance 51 (tick 50) and a top active and due at
    distance 2^31 + 101 (tick 2^31 + 100), neither firing.  The register is
    reset to 0, but the target programmed is 0, not [v + min d1 d2 = 50]:
    the rollover branch takes the top's tick from [next_top], which only
    the top check of the handler writes and [ctr_set_top_value] leaves at
    its old value, here 0. *)
Lemma rollover_uses_stale_next_top :
  let m := alarm_beyond_rollover in
  let m' := state_after counter_isr m in
  let due := U32.add (last_top (drv m)) (tc_ticks (top (drv m))) in
  hw_value (hw m) = TOP_VALUE /\ hw_target (hw m) = TOP_VALUE
  /\ is_alarm_pending (drv m) = true /\ is_top_set (drv m) = true
  /\ alarm_due TOP_VALUE m = false /\ top_due TOP_VALUE m = false
  /\ dist TOP_VALUE (ac_ticks (pending_alarm (drv m))) = 51
  /\ due = 2147483748
  /\ dist TOP_VALUE due = 2147483749
  /\ U32.add TOP_VALUE (Z.min 51 2147483749) = 50
  /\ next_top (drv m) = 0
  /\ log counter_isr m = [EvReset; EvSetTarget 0]
  /\ hw_value (hw m') = 0
  /\ hw_target (hw m') = 0
  /\ is_alarm_pending (drv m') = true
  /\ hw_target (hw m') <> ac_ticks (pending_alarm (drv m')).
Proof.
  cbv zeta. repeat (split; [vm_compute; reflexivity |]).
  vm_compute. discriminate.
Qed.

(** C3 fails as stated.  A top of period 100 was configured at 0; the
    handler runs at the match [v = 100], which is not [TOP_VALUE], and its
    top check writes the comparator: the new target is 200. *)
Lemma top_check_writes_target :
  ~ top_and_alarm_checks_leave_target (advance_to 100 with_top_100).
Proof.
  unfold top_and_alarm_checks_leave_target. intros H.
  assert (Hv : hw_value (hw (advance_to 100 with_top_100)) <> TOP_VALUE)
    by (vm_compute; discriminate).
  destruct (H Hv) as [Hw _]. vm_compute in Hw. discriminate Hw.
Qed.

(** ** The theorems at concrete inputs *)


Lemma isr_target_writes_off_rollover_witness :
  let m := advance_to 100 with_top_100 in
  hw_value (hw m) <> TOP_VALUE
  /\ target_writes (log (isr_top_check 100) m) = [200]
  /\ target_writes (log counter_isr m) = [200].
Proof.
  intros m.
  assert (Hv : hw_value (hw m) <> TOP_VALUE) by (vm_compute; discriminate).
  pose proof (isr_target_writes_off_rollover m Hv) as (_ & _ & Htop & Hall).
  split; [exact Hv |]. split; [exact Htop | exact Hall].
Defined.

Lemma coinciding_top_and_alarm_single_delivery_witness :
  let m := advance_to 100 with_top_and_alarm_100 in
  ac_ticks (pending_alarm (drv m)) = 100
  /\ U32.add (last_top (drv m)) (tc_ticks (top (drv m))) = 100
  /\ callbacks (log counter_isr m)
     = [EvTopCallback 1%positive 1 0; EvAlarmCallback 2%positive 1 0%N 100 0]
  /\ is_alarm_pending (drv (state_after counter_isr m)) = false
  /\ callbacks (log counter_isr (advance_to 100 (state_after counter_isr m)))
     = [].
Proof.
  intros m.
  pose proof (coinciding_top_and_alarm_single_delivery
                m 1%positive 2%positive
                eq_refl eq_refl eq_refl eq_refl eq_refl eq_refl)
    as (Hcb & Hclear & _ & Hagain).
  split; [reflexivity |]. split; [reflexivity |].
  split; [exact Hcb |]. split; [exact Hclear |].
  apply Hagain. vm_compute. discriminate.
Defined.

Lemma top_check_records_snapshot_witness :
  let m := advance_to 100 with_top_100 in
  is_top_set (drv m) = true
  /\ U32.add (last_top (drv m)) (tc_ticks (top (drv m))) = 100
  /\ last_top (drv (state_after counter_isr m)) = 100
  /\ next_top (drv (state_after counter_isr m)) = 200
  /\ is_top_set (drv (state_after counter_isr m)) = true.
Proof.
  intros m.
  pose proof (top_check_records_snapshot m 100 eq_refl eq_refl eq_refl)
    as [_ (Hlast & Hnext & Hset & _)].
  split; [reflexivity |]. split; [reflexivity |].
  split; [exact Hlast |]. split; [exact Hnext | exact Hset].
Defined.

Lemma busy_while_alarm_pending_witness :
  is_alarm_pending (drv with_alarm_50) = true
  /\ result (ctr_set_alarm api_ABSOLUTE 0%N
                           (mk_alarm_cfg (Some 3%positive) 70 0 api_ABSOLUTE))
            with_alarm_50 = Err EBUSY
  /\ result (ctr_set_top_value api_DONT_RESET api_RESET_WHEN_LATE
                               (mk_top_cfg 100 (Some 1%positive) 0 0))
            with_alarm_50 = Err EBUSY.
Proof.
  pose proof (busy_while_alarm_pending
                api_DONT_RESET api_RESET_WHEN_LATE api_ABSOLUTE
                with_alarm_50 eq_refl) as [Halarm Htop].
  split; [reflexivity |]. split.
  - exact (proj1 (Halarm 0%N _ eq_refl)).
  - exact (proj1 (Htop _)).
Defined.

(** The scenario of a period 5 requested two ticks below [TOP_VALUE] with
    don't-reset and without reset-when-late. *)
Lemma set_top_value_too_late_witness :
  let m := advance_to (TOP_VALUE - 2) started in
  let cfg := mk_top_cfg 5 (Some 1%positive) 0 api_DONT_RESET in
  is_alarm_pending (drv m) = false
  /\ flag_set (tc_flags cfg) api_DONT_RESET = true
  /\ flag_set (tc_flags cfg) api_RESET_WHEN_LATE = false
  /\ result (ctr_set_top_value api_DONT_RESET api_RESET_WHEN_LATE cfg) m
     = Err ETIME
  /\ hw_value
       (hw (state_after
              (ctr_set_top_value api_DONT_RESET api_RESET_WHEN_LATE cfg) m))
     = TOP_VALUE - 2.
Proof.
  intros m cfg.
  assert (Hlate : tc_ticks cfg <= hw_value (hw m))
    by (vm_compute; discriminate).
  pose proof (set_top_value_too_late
                api_DONT_RESET api_RESET_WHEN_LATE m cfg
                eq_refl eq_refl Hlate)
    as (Hret & _ & _ & _ & Hval & _).
  split; [reflexivity |]. split; [reflexivity |]. split; [reflexivity |].
  split; [exact Hret | exact Hval].
Defined.

Lemma cancel_alarm_unsupported_iff_witness :
  result (ctr_cancel_alarm 0%N) with_alarm_50 = Ok
  /\ is_alarm_pending (drv (state_after (ctr_cancel_alarm 0%N) with_alarm_50))
     = false
  /\ result (ctr_cancel_alarm 1%N) with_alarm_50 = Err ENOTSUP
  /\ result (ctr_cancel_alarm 0%N) boot = Err ENOTSUP.
Proof.
  split; [| split; [| split]].
  - refine (proj1 (proj2 (cancel_alarm_unsupported_iff with_alarm_50 0%N) _)).
    vm_compute. discriminate.
  - refine (proj1 (proj2 (proj2 (cancel_alarm_unsupported_iff
                                   with_alarm_50 0%N) _))).
    vm_compute. discriminate.
  - apply (proj1 (cancel_alarm_unsupported_iff with_alarm_50 1%N)).
    left. vm_compute. discriminate.
  - apply (proj1 (cancel_alarm_unsupported_iff boot 0%N)).
    right. reflexivity.
Defined.

Lemma cancel_alarm_idempotent_witness :
  (0 < DRIVER_CONFIG_INFO_CHANNELS)%N
  /\ hw_started (hw started) = true
  /\ is_alarm_pending (drv started) = false
  /\ result (ctr_cancel_alarm 0%N) started = Ok
  /\ state_after (ctr_cancel_alarm 0%N)
                 (state_after (ctr_cancel_alarm 0%N) started)
     = state_after (ctr_cancel_alarm 0%N) started.
Proof.
  pose proof (cancel_alarm_idempotent started 0%N eq_refl eq_refl)
    as (Hok & _ & _ & Hsame).
  split; [reflexivity |]. split; [reflexivity |]. split; [reflexivity |].
  split; [exact Hok | exact Hsame].
Defined.

(** * Further properties of the driver

    Error paths, success paths, how the API functions and the handler
    compose, and what holds in every state the driver can reach. *)

Lemma callbacks_app l1 l2 : callbacks (l1 ++ l2) = callbacks l1 ++ callbacks l2.
Proof.
  induction l1 as [| e l1 IH]; [reflexivity |].
  destruct e; cbn; rewrite ?IH; reflexivity.
Qed.

Lemma add_in_range a b : U32.in_range (U32.add a b).
Proof. apply wrap_in_range. Qed.

Lemma top_value_in_range : U32.in_range TOP_VALUE.
Proof. unfold U32.in_range. rewrite TOP_VALUE_value, modulus_value. lia. Qed.

Lemma zero_in_range : U32.in_range 0.
Proof. unfold U32.in_range. rewrite modulus_value. lia. Qed.

Lemma wrap_add_wrap_l a b : U32.wrap (U32.wrap a + b) = U32.wrap (a + b).
Proof.
  unfold U32.wrap. apply Z.add_mod_idemp_l. rewrite modulus_value. lia.
Qed.

(** One top period: the counter reaches the due tick and the handler runs. *)
Lemma one_top_period (m : machine) (f : fnptr) :
  is_top_set (drv m) = true ->
  is_alarm_pending (drv m) = false ->
  tc_callback (top (drv m)) = Some f ->
  let due := U32.add (last_top (drv m)) (tc_ticks (top (drv m))) in
  let m1 := advance_to due m in
  let m' := state_after counter_isr m1 in
  last_top (drv m') = due
  /\ is_top_set (drv m') = true
  /\ is_alarm_pending (drv m') = false
  /\ top (drv m') = top (drv m)
  /\ device (drv m') = device (drv m)
  /\ callbacks (log counter_isr m1)
     = [EvTopCallback f (device (drv m)) (tc_user_data (top (drv m)))].
Proof.
  intros Hset Hpend Hcb. open_machine m. subst. unfold_drv.
  split_tests; absurd_tests; repeat split.
Qed.

Section Further.

Variable COUNTER_TOP_CFG_DONT_RESET : Z.
Variable COUNTER_TOP_CFG_RESET_WHEN_LATE : Z.
Variable COUNTER_ALARM_CFG_ABSOLUTE : Z.
Variable CONFIG_COUNTER_NATIVE_POSIX_FREQUENCY : Z.

Abbreviation set_top_value :=
  (ctr_set_top_value COUNTER_TOP_CFG_DONT_RESET
                     COUNTER_TOP_CFG_RESET_WHEN_LATE).
Abbreviation set_alarm := (ctr_set_alarm COUNTER_ALARM_CFG_ABSOLUTE).
Abbreviation init := (ctr_init CONFIG_COUNTER_NATIVE_POSIX_FREQUENCY).
Abbreviation run :=
  (do_actions COUNTER_TOP_CFG_DONT_RESET COUNTER_TOP_CFG_RESET_WHEN_LATE
              COUNTER_ALARM_CFG_ABSOLUTE CONFIG_COUNTER_NATIVE_POSIX_FREQUENCY).
Abbreviation run1 :=
  (do_action COUNTER_TOP_CFG_DONT_RESET COUNTER_TOP_CFG_RESET_WHEN_LATE
             COUNTER_ALARM_CFG_ABSOLUTE CONFIG_COUNTER_NATIVE_POSIX_FREQUENCY).


(** X1: [ctr_set_alarm] checks in this order: an unsupported channel gives
    [ENOTSUP] (even while an alarm is pending), a pending alarm gives
    [EBUSY], an active top whose tick [top.ticks] is nearer to [v] than the
    alarm tick gives [EINVAL], anything else succeeds; [ETIME] is never
    returned.  Every error return leaves the machine exactly as it was,
    writes no comparator target and invokes no callback. *)
Theorem set_alarm_return_code
        (m : machine) (chan_id : N) (alarm_cfg : counter_alarm_cfg) :
  let v := hw_value (hw m) in
  let ticks := alarm_tick COUNTER_ALARM_CFG_ABSOLUTE v alarm_cfg in
  result (set_alarm chan_id alarm_cfg) m
  = (if (DRIVER_CONFIG_INFO_CHANNELS <=? chan_id)%N then Err ENOTSUP
     else if is_alarm_pending (drv m) then Err EBUSY
     else if is_top_set (drv m)
             && (dist v (tc_ticks (top (drv m))) <? dist v ticks)
          then Err EINVAL
          else Ok)
  /\ (result (set_alarm chan_id alarm_cfg) m <> Ok ->
      state_after (set_alarm chan_id alarm_cfg) m = m
      /\ target_writes (log (set_alarm chan_id alarm_cfg) m) = []
      /\ callbacks (log (set_alarm chan_id alarm_cfg) m) = []).
Proof.
  open_machine m. unfold alarm_tick, dist. unfold_drv.
  split.
  - split_tests; reflexivity.
  - split_tests; intros He; try (exfalso; apply He; reflexivity); auto.
Qed.

(** X2: a successful [ctr_set_alarm] marks the alarm pending, stores the
    request with its tick made absolute (callback, user data and flags as
    given), enables the interrupt, leaves the top configuration,
    [last_top], [next_top] and the register alone, and its only action on
    the outside is one comparator write. *)
Theorem set_alarm_success_effects
        (m : machine) (chan_id : N) (alarm_cfg : counter_alarm_cfg) :
  result (set_alarm chan_id alarm_cfg) m = Ok ->
  let v := hw_value (hw m) in
  let ticks := alarm_tick COUNTER_ALARM_CFG_ABSOLUTE v alarm_cfg in
  let m' := state_after (set_alarm chan_id alarm_cfg) m in
  is_alarm_pending (drv m') = true
  /\ pending_alarm (drv m') = set_ac_ticks ticks alarm_cfg
  /\ irq_enabled m' = true
  /\ top (drv m') = top (drv m)
  /\ is_top_set (drv m') = is_top_set (drv m)
  /\ last_top (drv m') = last_top (drv m)
  /\ next_top (drv m') = next_top (drv m)
  /\ hw_value (hw m') = v
  /\ log (set_alarm chan_id alarm_cfg) m = [EvSetTarget (hw_target (hw m'))].
Proof.
  open_machine m. unfold alarm_tick. unfold_drv.
  split_tests; intros He; try discriminate He; repeat split.
Qed.

(** X3: [ctr_set_top_value] returns [EBUSY] when an alarm is pending,
    else [ETIME] when the don't-reset flag is set and the period is not
    above the current value, else 0; without the don't-reset flag it never
    returns [ETIME].  On every error the driver's variables, the comparator
    target and the interrupt enable are unchanged and no callback is
    invoked. *)
Theorem set_top_value_return_code (m : machine) (cfg : counter_top_cfg) :
  let m' := state_after (set_top_value cfg) m in
  result (set_top_value cfg) m
  = (if is_alarm_pending (drv m) then Err EBUSY
     else if flag_set (tc_flags cfg) COUNTER_TOP_CFG_DONT_RESET
             && (tc_ticks cfg <=? hw_value (hw m))
          then Err ETIME
          else Ok)
  /\ (result (set_top_value cfg) m <> Ok ->
      drv m' = drv m
      /\ hw_target (hw m') = hw_target (hw m)
      /\ irq_enabled m' = irq_enabled m
      /\ target_writes (log (set_top_value cfg) m) = []
      /\ callbacks (log (set_top_value cfg) m) = []).
Proof.
  open_machine m. unfold_drv.
  split.
  - split_tests; reflexivity.
  - split_tests; intros He; try (exfalso; apply He; reflexivity); auto.
Qed.

(** X4: a successful [ctr_set_top_value] stores the configuration, sets
    [last_top] to the value read on entry and leaves [next_top] as it was;
    the top is active exactly when the period is not [TOP_VALUE] and the
    callback is not [NULL]; the register is reset to 0 unless don't-reset
    was asked for; the comparator is programmed to [v + period] and the
    interrupt enabled only when the top is active. *)
Theorem set_top_value_success_effects (m : machine) (cfg : counter_top_cfg) :
  result (set_top_value cfg) m = Ok ->
  let v := hw_value (hw m) in
  let m' := state_after (set_top_value cfg) m in
  let active :=
    negb (tc_ticks cfg =? TOP_VALUE)
    && match tc_callback cfg with Some _ => true | None => false end in
  top (drv m') = cfg
  /\ last_top (drv m') = v
  /\ next_top (drv m') = next_top (drv m)
  /\ is_top_set (drv m') = active
  /\ is_alarm_pending (drv m') = false
  /\ hw_value (hw m')
     = (if flag_set (tc_flags cfg) COUNTER_TOP_CFG_DONT_RESET then v else 0)
  /\ hw_target (hw m')
     = (if active then U32.add v (tc_ticks cfg) else hw_target (hw m))
  /\ irq_enabled m' = (if active then true else irq_enabled m)
  /\ callbacks (log (set_top_value cfg) m) = [].
Proof.
  open_machine m. unfold_drv.
  split_tests; intros He; try discriminate He; repeat split.
Qed.

(** X5: [ctr_get_top_value] after [ctr_set_top_value] returns the new
    period if the call succeeded (also when the top it configured is
    inactive) and the old one if it failed; reading changes nothing. *)
Theorem get_top_value_after_set (m : machine) (cfg : counter_top_cfg) :
  let m' := state_after (set_top_value cfg) m in
  result ctr_get_top_value m'
  = (match result (set_top_value cfg) m with
     | Ok => tc_ticks cfg
     | Err _ => result ctr_get_top_value m
     end)
  /\ state_after ctr_get_top_value m' = m'.
Proof.
  open_machine m. unfold ctr_get_top_value. unfold_drv.
  split; split_tests; reflexivity.
Qed.

(** X6: a successful [ctr_set_top_value] with period [TOP_VALUE] or a
    [NULL] callback deactivates the top without touching the comparator,
    and after it the handler invokes no callback at any counter value. *)
Theorem disabled_top_never_fires (m : machine) (cfg : counter_top_cfg) :
  result (set_top_value cfg) m = Ok ->
  tc_ticks cfg = TOP_VALUE \/ tc_callback cfg = None ->
  let m' := state_after (set_top_value cfg) m in
  is_top_set (drv m') = false
  /\ hw_target (hw m') = hw_target (hw m)
  /\ forall v, callbacks (log counter_isr (advance_to v m')) = [].
Proof.
  intros Hok Hoff.
  open_machine m. cbn in Hoff. revert Hok. unfold_drv.
  split_tests; intros He; try discriminate He;
    tests_to_props; try (destruct Hoff; congruence);
    (split; [reflexivity |]); (split; [reflexivity |]);
    intros v; split_tests; reflexivity.
Qed.


(** X7: after a successful [ctr_set_top_value] with a callback and a
    period other than [TOP_VALUE], the comparator holds [v + period], [v]
    being the value read on entry (before any reset); the handler run at
    that tick invokes the top callback, once, with the configured user
    data, and moves [last_top] there and [next_top] one period further;
    run at any other tick it invokes nothing. *)
Theorem first_top_after_set_top_value
        (m : machine) (cfg : counter_top_cfg) (f : fnptr) :
  result (set_top_value cfg) m = Ok ->
  tc_ticks cfg <> TOP_VALUE ->
  tc_callback cfg = Some f ->
  let v := hw_value (hw m) in
  let due := U32.add v (tc_ticks cfg) in
  let m' := state_after (set_top_value cfg) m in
  let m'' := state_after counter_isr (advance_to due m') in
  hw_target (hw m') = due
  /\ callbacks (log counter_isr (advance_to due m'))
     = [EvTopCallback f (device (drv m)) (tc_user_data cfg)]
  /\ last_top (drv m'') = due
  /\ next_top (drv m'') = U32.add due (tc_ticks cfg)
  /\ (forall v', v' <> due ->
                 callbacks (log counter_isr (advance_to v' m')) = []).
Proof.
  intros Hok Hticks Hcb.
  destruct cfg as [ticks cb ud fl]. cbn in Hticks, Hcb. subst cb.
  apply Z.eqb_neq in Hticks.
  open_machine m. revert Hok. unfold_drv. cbn. rewrite Hticks.
  split_tests; intros He; try discriminate He; absurd_tests;
    repeat split; try reflexivity;
    intros v' Hv'; apply Z.eqb_neq in Hv'; split_tests; absurd_tests;
    try reflexivity; congruence.
Qed.

(** The handler on a machine with an alarm pending whose callback is
    present. *)
Lemma isr_on_pending_alarm (m : machine) (g : fnptr) :
  is_alarm_pending (drv m) = true ->
  ac_callback (pending_alarm (drv m)) = Some g ->
  let t := ac_ticks (pending_alarm (drv m)) in
  alarm_callbacks (log counter_isr (advance_to t m))
  = [EvAlarmCallback g (device (drv m)) 0%N t
                     (ac_user_data (pending_alarm (drv m)))]
  /\ is_alarm_pending (drv (state_after counter_isr (advance_to t m))) = false
  /\ (forall v', v' <> t ->
        alarm_callbacks (log counter_isr (advance_to v' m)) = []
        /\ is_alarm_pending
             (drv (state_after counter_isr (advance_to v' m))) = true).
Proof.
  intros Hpend Hcb. open_machine m. subst. unfold_drv.
  split; [| split].
  - split_tests; absurd_tests; reflexivity.
  - split_tests; absurd_tests; reflexivity.
  - intros v' Hv'. apply Z.eqb_neq in Hv'.
    split; split_tests; absurd_tests; tests_to_props;
      try reflexivity; congruence.
Qed.

(** What a successful [ctr_set_alarm] leaves in the driver. *)
Lemma set_alarm_stores
      (m : machine) (chan_id : N) (alarm_cfg : counter_alarm_cfg) :
  result (set_alarm chan_id alarm_cfg) m = Ok ->
  let m' := state_after (set_alarm chan_id alarm_cfg) m in
  is_alarm_pending (drv m') = true
  /\ pending_alarm (drv m')
     = set_ac_ticks
         (alarm_tick COUNTER_ALARM_CFG_ABSOLUTE (hw_value (hw m)) alarm_cfg)
         alarm_cfg
  /\ device (drv m') = device (drv m).
Proof.
  open_machine m. unfold alarm_tick. unfold_drv.
  split_tests; intros He; try discriminate He; repeat split.
Qed.

(** X8: after a successful [ctr_set_alarm] with a callback, the handler run
    at the alarm's absolute tick invokes the alarm callback once, with
    channel 0, that tick as value and the given user data, and clears the
    pending flag; run at any other tick it invokes no alarm callback and
    the alarm stays pending. *)
Theorem alarm_delivered_at_tick
        (m : machine) (chan_id : N) (alarm_cfg : counter_alarm_cfg)
        (g : fnptr) :
  result (set_alarm chan_id alarm_cfg) m = Ok ->
  ac_callback alarm_cfg = Some g ->
  let v := hw_value (hw m) in
  let ticks := alarm_tick COUNTER_ALARM_CFG_ABSOLUTE v alarm_cfg in
  let m' := state_after (set_alarm chan_id alarm_cfg) m in
  alarm_callbacks (log counter_isr (advance_to ticks m'))
  = [EvAlarmCallback g (device (drv m)) 0%N ticks (ac_user_data alarm_cfg)]
  /\ is_alarm_pending (drv (state_after counter_isr (advance_to ticks m')))
     = false
  /\ (forall v', v' <> ticks ->
        alarm_callbacks (log counter_isr (advance_to v' m')) = []
        /\ is_alarm_pending
             (drv (state_after counter_isr (advance_to v' m'))) = true).
Proof.
  intros Hok Hcb v ticks m'.
  destruct (set_alarm_stores m chan_id alarm_cfg Hok)
    as (Hpend & Hstored & Hdev).
  fold m' in Hpend, Hstored, Hdev. fold v ticks in Hstored.
  assert (Hcb' : ac_callback (pending_alarm (drv m')) = Some g)
    by (rewrite Hstored; exact Hcb).
  pose proof (isr_on_pending_alarm m' g Hpend Hcb') as H.
  rewrite Hstored, Hdev in H. exact H.
Qed.

(** X9: after a successful [ctr_cancel_alarm] the handler invokes no alarm
    callback at any counter value, and a new [ctr_set_alarm] is not refused
    with [EBUSY]; the stored request and the comparator target are left as
    they were. *)
Theorem cancel_alarm_effective
        (m : machine) (chan_id : N) (alarm_cfg : counter_alarm_cfg) :
  (chan_id < DRIVER_CONFIG_INFO_CHANNELS)%N ->
  hw_started (hw m) = true ->
  let m1 := state_after (ctr_cancel_alarm chan_id) m in
  (forall v, alarm_callbacks (log counter_isr (advance_to v m1)) = [])
  /\ result (set_alarm chan_id alarm_cfg) m1 <> Err EBUSY
  /\ pending_alarm (drv m1) = pending_alarm (drv m)
  /\ hw_target (hw m1) = hw_target (hw m).
Proof.
  intros Hchan Hrun. apply N.leb_gt in Hchan.
  open_machine m. subst. unfold_drv. rewrite Hchan. cbn.
  split; [| split; [| split; reflexivity]].
  - intros v. split_tests; reflexivity.
  - split_tests; discriminate.
Qed.

(** X10: in any state, one run of the handler invokes the top callback
    exactly when the top is active, due at the snapshot and its callback
    is not [NULL], then the alarm callback exactly when an alarm is
    pending at the snapshot and its callback is not [NULL]: at most one of
    each, the top first, nothing else. *)
Theorem isr_callbacks_characterised (m : machine) :
  let v := hw_value (hw m) in
  let d := drv m in
  callbacks (log counter_isr m)
  = (if top_due v m
     then match tc_callback (top d) with
          | Some f => [EvTopCallback f (device d) (tc_user_data (top d))]
          | None => []
          end
     else [])
    ++ (if alarm_due v m
        then match ac_callback (pending_alarm d) with
             | Some g =>
                 [EvAlarmCallback g (device d) 0%N v
                                  (ac_user_data (pending_alarm d))]
             | None => []
             end
        else []).
Proof.
  open_machine m. unfold alarm_due. unfold_drv.
  split_tests; absurd_tests; reflexivity.
Qed.

(** X11: a handler run at a value that is neither the tick the top is due
    at, nor the pending alarm's tick, nor [TOP_VALUE] does nothing: same
    machine, empty log. *)
Theorem isr_spurious_is_noop (m : machine) :
  let v := hw_value (hw m) in
  top_due v m = false ->
  alarm_due v m = false ->
  v <> TOP_VALUE ->
  counter_isr m = (tt, m, []).
Proof.
  intros v Htop Halarm Hv. subst v. apply Z.eqb_neq in Hv.
  open_machine m. unfold alarm_due in *. unfold_drv. cbn in *.
  rewrite Htop. cbn. rewrite Halarm. cbn. rewrite Hv. reflexivity.
Qed.

(** X12: the handler never changes the top configuration, the top's
    active flag, the stored alarm request, the device, the running flag,
    the period or the interrupt enable; it never makes an alarm pending;
    it resets the register, once, exactly when the snapshot is
    [TOP_VALUE]. *)
Theorem isr_frame (m : machine) :
  let m' := state_after counter_isr m in
  top (drv m') = top (drv m)
  /\ is_top_set (drv m') = is_top_set (drv m)
  /\ pending_alarm (drv m') = pending_alarm (drv m)
  /\ device (drv m') = device (drv m)
  /\ hw_started (hw m') = hw_started (hw m)
  /\ hw_period (hw m') = hw_period (hw m)
  /\ irq_enabled m' = irq_enabled m
  /\ (is_alarm_pending (drv m') = true -> is_alarm_pending (drv m) = true)
  /\ hw_value (hw m')
     = (if hw_value (hw m) =? TOP_VALUE then 0 else hw_value (hw m))
  /\ resets (log counter_isr m)
     = (if hw_value (hw m) =? TOP_VALUE then 1%nat else 0%nat).
Proof.
  open_machine m. unfold_drv.
  split_tests; absurd_tests; repeat split; auto.
Qed.


(** X13: no drift.  With a top active, its callback present and no alarm
    pending, after [n] periods in a row (the counter reaches the due tick,
    the handler runs) [last_top] is the initial [last_top] plus [n] times
    the period (mod 2^32), the top is still active and unchanged, and the
    top callback was invoked exactly [n] times and nothing else was. *)
Theorem top_periods_no_drift (n : nat) (m : machine) (f : fnptr) :
  is_top_set (drv m) = true ->
  is_alarm_pending (drv m) = false ->
  tc_callback (top (drv m)) = Some f ->
  U32.in_range (last_top (drv m)) ->
  let P := tc_ticks (top (drv m)) in
  let m' := fst (top_periods n m) in
  last_top (drv m') = U32.wrap (last_top (drv m) + Z.of_nat n * P)
  /\ is_top_set (drv m') = true
  /\ top (drv m') = top (drv m)
  /\ callbacks (snd (top_periods n m))
     = repeat (EvTopCallback f (device (drv m)) (tc_user_data (top (drv m))))
              n.
Proof.
  revert m. induction n as [| n IH]; intros m Hset Hpend Hcb Hrange.
  - cbn. rewrite Z.add_0_r, wrap_small by exact Hrange. auto.
  - destruct (one_top_period m f Hset Hpend Hcb)
      as (Hlast & Hset' & Hpend' & Htop & Hdev & Hlog).
    cbn [top_periods fst snd].
    set (m1 := state_after counter_isr
                 (advance_to (U32.add (last_top (drv m))
                                      (tc_ticks (top (drv m)))) m)) in *.
    assert (Hcb' : tc_callback (top (drv m1)) = Some f)
      by (rewrite Htop; exact Hcb).
    assert (Hrange' : U32.in_range (last_top (drv m1)))
      by (rewrite Hlast; apply add_in_range).
    destruct (IH m1 Hset' Hpend' Hcb' Hrange') as (IH1 & IH2 & IH3 & IH4).
    split; [| split; [| split]].
    + rewrite IH1, Hlast, Htop. unfold U32.add.
      rewrite wrap_add_wrap_l. f_equal. lia.
    + exact IH2.
    + rewrite IH3. exact Htop.
    + rewrite callbacks_app, Hlog, IH4, Htop, Hdev. reflexivity.
Qed.

(** X14: [ctr_init] returns 0 from any state, clears the pending alarm and
    the active top, records the device and programs [TOP_VALUE]; after it
    the handler at any counter value invokes no callback and leaves the
    target at [TOP_VALUE], resetting the register only at [TOP_VALUE]. *)
Theorem init_quiesces (m0 : machine) (dev_ptr : Z) :
  let m := state_after (init dev_ptr) m0 in
  result (init dev_ptr) m0 = Ok
  /\ is_alarm_pending (drv m) = false
  /\ is_top_set (drv m) = false
  /\ device (drv m) = dev_ptr
  /\ hw_target (hw m) = TOP_VALUE
  /\ hw_value (hw m) = hw_value (hw m0)
  /\ (forall v,
         callbacks (log counter_isr (advance_to v m)) = []
         /\ hw_target (hw (state_after counter_isr (advance_to v m)))
            = TOP_VALUE
         /\ hw_value (hw (state_after counter_isr (advance_to v m)))
            = (if v =? TOP_VALUE then 0 else v)).
Proof.
  open_machine m0. unfold_drv. cbn.
  repeat (split; [reflexivity |]).
  intros v. split_tests; repeat split.
Qed.

(** X15: [ctr_start] and [ctr_stop] return 0 and leave the driver's
    variables, the register and the comparator alone; after [ctr_stop] a
    [ctr_cancel_alarm] on the valid channel returns [ENOTSUP] and changes
    nothing, after [ctr_start] it returns 0 and clears the pending flag. *)
Theorem stop_blocks_cancel (m : machine) (chan_id : N) :
  (chan_id < DRIVER_CONFIG_INFO_CHANNELS)%N ->
  let stopped := state_after ctr_stop m in
  let running := state_after ctr_start m in
  result ctr_stop m = Ok
  /\ result ctr_start m = Ok
  /\ drv stopped = drv m /\ drv running = drv m
  /\ hw_value (hw stopped) = hw_value (hw m)
  /\ hw_target (hw stopped) = hw_target (hw m)
  /\ hw_value (hw running) = hw_value (hw m)
  /\ hw_target (hw running) = hw_target (hw m)
  /\ result (ctr_cancel_alarm chan_id) stopped = Err ENOTSUP
  /\ state_after (ctr_cancel_alarm chan_id) stopped = stopped
  /\ result (ctr_cancel_alarm chan_id) running = Ok
  /\ is_alarm_pending (drv (state_after (ctr_cancel_alarm chan_id) running))
     = false.
Proof.
  intros Hchan. apply N.leb_gt in Hchan.
  open_machine m. unfold ctr_start, ctr_stop, hw_counter_start, hw_counter_stop.
  unfold_drv. rewrite Hchan. cbn. repeat split.
Qed.

Lemma do_action_keeps_usable (a : action) (m : machine) :
  active_top_is_usable m -> active_top_is_usable (run1 a m).
Proof.
  unfold active_top_is_usable. intros Hinv.
  destruct a as [dev_ptr | | | cfg | chan_id alarm_cfg | chan_id | | v];
    try destruct cfg as [c_ticks c_cb c_ud c_fl];
    open_machine m; cbn [do_action];
    unfold ctr_start, ctr_stop, hw_counter_start, hw_counter_stop,
      hw_counter_set_period;
    unfold_drv;
    split_tests; absurd_tests; tests_to_props;
    try exact Hinv; try discriminate;
    intros _; split; congruence.
Qed.

Lemma do_actions_keep_usable (l : list action) (m : machine) :
  active_top_is_usable m -> active_top_is_usable (run l m).
Proof.
  revert m. induction l as [| a l IH]; intros m Hinv; [exact Hinv |].
  cbn [do_actions]. apply IH, do_action_keeps_usable, Hinv.
Qed.

(** X16: in every state reached from [ctr_init] by any sequence of API
    calls, handler runs and counter movements, an active top has a
    callback and a period other than [TOP_VALUE]; so whenever the top is
    due the handler invokes the top callback, exactly once. *)
Theorem reachable_top_is_usable
        (l : list action) (m0 : machine) (dev_ptr : Z) :
  let m := run l (state_after (init dev_ptr) m0) in
  active_top_is_usable m
  /\ (top_due (hw_value (hw m)) m = true ->
      exists f,
        top_callbacks (log counter_isr m)
        = [EvTopCallback f (device (drv m)) (tc_user_data (top (drv m)))]).
Proof.
  intros m.
  assert (Hinv : active_top_is_usable m).
  { apply do_actions_keep_usable. unfold active_top_is_usable.
    open_machine m0. unfold_drv. cbn. discriminate. }
  split; [exact Hinv |].
  clearbody m. unfold active_top_is_usable in Hinv.
  open_machine m. unfold_drv. cbn. intros Hdue.
  destruct tset; [| discriminate Hdue].
  destruct (Hinv eq_refl) as [Hcb _].
  destruct t_cb as [f |]; [| congruence].
  exists f. cbn in Hdue. rewrite Hdue. split_tests; reflexivity.
Qed.

Lemma min_in_range a b :
  U32.in_range a -> U32.in_range b -> U32.in_range (MIN a b).
Proof. unfold MIN. destruct (a <? b); auto. Qed.

Ltac range_goal :=
  first [ assumption | apply add_in_range | apply top_value_in_range
        | apply zero_in_range | apply min_in_range; range_goal ].

Ltac solve_range :=
  repeat match goal with
         | |- _ /\ _ => split
         end;
  range_goal.

Lemma do_action_keeps_range (a : action) (m : machine) :
  action_in_range a -> ticks_in_range m -> ticks_in_range (run1 a m).
Proof.
  unfold ticks_in_range. intros Ha (H1 & H2 & H3 & H4 & H5 & H6).
  destruct a as [dev_ptr | | | cfg | chan_id alarm_cfg | chan_id | | v];
    try destruct cfg as [c_ticks c_cb c_ud c_fl];
    try destruct alarm_cfg as [c_cb c_ticks c_ud c_fl];
    open_machine m; cbn [do_action action_in_range tc_ticks ac_ticks] in *;
    unfold ctr_start, ctr_stop, hw_counter_start, hw_counter_stop,
      hw_counter_set_period;
    unfold_drv;
    split_tests; solve_range.
Qed.

(** X17: if every tick the machine holds is a 32-bit value and the
    actions hand in 32-bit values only, every tick the machine holds
    after them is a 32-bit value: register, comparator target, stored
    alarm tick, period, [last_top] and [next_top]. *)
Theorem ticks_stay_in_range (l : list action) (m : machine) :
  Forall action_in_range l ->
  ticks_in_range m ->
  ticks_in_range (run l m).
Proof.
  revert m. induction l as [| a l IH]; intros m Hl Hm; [exact Hm |].
  inversion Hl as [| ? ? Ha Hl']; subst.
  cbn [do_actions]. apply IH; [exact Hl' |].
  apply do_action_keeps_range; assumption.
Qed.


Lemma do_action_keeps_irq (a : action) (m : machine) :
  armed_with_irq m -> armed_with_irq (run1 a m).
Proof.
  unfold armed_with_irq. intros Hinv.
  destruct a as [dev_ptr | | | cfg | chan_id alarm_cfg | chan_id | | v];
    open_machine m; cbn [do_action];
    unfold ctr_start, ctr_stop, hw_counter_start, hw_counter_stop,
      hw_counter_set_period;
    unfold_drv;
    split_tests; absurd_tests;
    try exact Hinv; try reflexivity;
    intros [H | H]; try discriminate H;
    apply Hinv; auto.
Qed.

(** X18: in every state reached from [ctr_init] by any sequence of API
    calls, handler runs and counter movements, a pending alarm or an active
    top implies that the counter interrupt is enabled. *)
Theorem armed_implies_irq_enabled
        (l : list action) (m0 : machine) (dev_ptr : Z) :
  let m := run l (state_after (init dev_ptr) m0) in
  is_alarm_pending (drv m) = true \/ is_top_set (drv m) = true ->
  irq_enabled m = true.
Proof.
  intros m. subst m.
  assert (H0 : armed_with_irq (state_after (init dev_ptr) m0)).
  { unfold armed_with_irq. open_machine m0. unfold_drv. cbn.
    intros [H | H]; discriminate H. }
  revert H0. generalize (state_after (init dev_ptr) m0).
  induction l as [| a l IH]; intros m Hinv; [exact Hinv |].
  cbn [do_actions]. apply IH, do_action_keeps_irq, Hinv.
Qed.

(** X19: a successful relative [ctr_set_alarm] of [d] ticks stores a tick
    at wraparound distance exactly [d] from the current value [v], and
    programs [TOP_VALUE] when [TOP_VALUE] is strictly nearer than [d]
    ticks, the alarm tick [v + d] (mod 2^32) otherwise. *)
Theorem relative_alarm_distance
        (m : machine) (chan_id : N) (alarm_cfg : counter_alarm_cfg) :
  result (set_alarm chan_id alarm_cfg) m = Ok ->
  flag_set (ac_flags alarm_cfg) COUNTER_ALARM_CFG_ABSOLUTE = false ->
  U32.in_range (ac_ticks alarm_cfg) ->
  let v := hw_value (hw m) in
  let m' := state_after (set_alarm chan_id alarm_cfg) m in
  dist v (ac_ticks (pending_alarm (drv m'))) = ac_ticks alarm_cfg
  /\ hw_target (hw m')
     = (if dist v TOP_VALUE <? ac_ticks alarm_cfg
        then TOP_VALUE
        else U32.add (ac_ticks alarm_cfg) v).
Proof.
  intros Hok Hrel Hd.
  destruct alarm_cfg as [cb d ud fl]. cbn in Hrel, Hd.
  assert (Hdist : forall v, U32.sub (U32.add d v) v = d).
  { intros v. unfold U32.sub, U32.add, U32.wrap, U32.in_range in *.
    rewrite modulus_value in *.
    rewrite Zminus_mod_idemp_l. replace (d + v - v) with d by lia.
    apply Z.mod_small. exact Hd. }
  open_machine m. revert Hok. unfold dist. unfold_drv. cbn. rewrite Hrel. cbn.
  split_tests; intros He; try discriminate He;
    rewrite ?Hdist in *; split; try reflexivity; congruence.
Qed.

End Further.

(** ** The further properties at concrete inputs *)

Lemma set_alarm_return_code_witness :
  let cfg := mk_alarm_cfg (Some 3%positive) 70 0 api_ABSOLUTE in
  is_alarm_pending (drv with_alarm_50) = true
  /\ result (ctr_set_alarm api_ABSOLUTE 1%N cfg) with_alarm_50 = Err ENOTSUP
  /\ state_after (ctr_set_alarm api_ABSOLUTE 1%N cfg) with_alarm_50
     = with_alarm_50.
Proof.
  intros cfg.
  pose proof (set_alarm_return_code api_ABSOLUTE with_alarm_50 1%N cfg)
    as [Hret Hsame].
  split; [reflexivity |]. split; [exact Hret |].
  refine (proj1 (Hsame _)). vm_compute. discriminate.
Defined.

Lemma set_alarm_success_effects_witness :
  let cfg := mk_alarm_cfg (Some 2%positive) 5 0 0 in
  let m := advance_to 10 started in
  result (ctr_set_alarm api_ABSOLUTE 0%N cfg) m = Ok
  /\ pending_alarm (drv (state_after (ctr_set_alarm api_ABSOLUTE 0%N cfg) m))
     = mk_alarm_cfg (Some 2%positive) 15 0 0
  /\ log (ctr_set_alarm api_ABSOLUTE 0%N cfg) m = [EvSetTarget 15].
Proof.
  intros cfg m.
  pose proof (set_alarm_success_effects api_ABSOLUTE m 0%N cfg eq_refl)
    as (_ & Hstored & _ & _ & _ & _ & _ & _ & Hlog).
  split; [reflexivity |]. split; [exact Hstored | exact Hlog].
Defined.

Lemma set_top_value_return_code_witness :
  let cfg := mk_top_cfg 5 (Some 1%positive) 0 3 in
  let m := advance_to (TOP_VALUE - 2) started in
  result (ctr_set_top_value api_DONT_RESET api_RESET_WHEN_LATE cfg) m
  = Err ETIME
  /\ drv (state_after
            (ctr_set_top_value api_DONT_RESET api_RESET_WHEN_LATE cfg) m)
     = drv m.
Proof.
  intros cfg m.
  pose proof (set_top_value_return_code
                api_DONT_RESET api_RESET_WHEN_LATE m cfg) as [Hret Hsame].
  split; [exact Hret |].
  refine (proj1 (Hsame _)). vm_compute. discriminate.
Defined.

Lemma set_top_value_success_effects_witness :
  let cfg := mk_top_cfg 100 (Some 1%positive) 0 0 in
  let m := advance_to 40 started in
  let m' :=
    state_after (ctr_set_top_value api_DONT_RESET api_RESET_WHEN_LATE cfg) m in
  result (ctr_set_top_value api_DONT_RESET api_RESET_WHEN_LATE cfg) m = Ok
  /\ last_top (drv m') = 40
  /\ hw_value (hw m') = 0
  /\ hw_target (hw m') = 140.
Proof.
  intros cfg m m'.
  pose proof (set_top_value_success_effects
                api_DONT_RESET api_RESET_WHEN_LATE m cfg eq_refl)
    as (_ & Hlast & _ & _ & _ & Hval & Htarget & _).
  split; [reflexivity |]. split; [exact Hlast |].
  split; [exact Hval | exact Htarget].
Defined.

Lemma disabled_top_never_fires_witness :
  let cfg := mk_top_cfg TOP_VALUE (Some 1%positive) 0 0 in
  let m' :=
    state_after (ctr_set_top_value api_DONT_RESET api_RESET_WHEN_LATE cfg)
                with_top_100 in
  result (ctr_set_top_value api_DONT_RESET api_RESET_WHEN_LATE cfg)
         with_top_100 = Ok
  /\ is_top_set (drv with_top_100) = true
  /\ is_top_set (drv m') = false
  /\ callbacks (log counter_isr (advance_to 100 m')) = [].
Proof.
  intros cfg m'.
  pose proof (disabled_top_never_fires
                api_DONT_RESET api_RESET_WHEN_LATE with_top_100 cfg
                eq_refl (or_introl eq_refl)) as (Hoff & _ & Hquiet).
  split; [reflexivity |]. split; [reflexivity |].
  split; [exact Hoff | exact (Hquiet 100)].
Defined.

Lemma first_top_after_set_top_value_witness :
  let cfg := mk_top_cfg 100 (Some 1%positive) 9 0 in
  let m := advance_to 40 started in
  let m' :=
    state_after (ctr_set_top_value api_DONT_RESET api_RESET_WHEN_LATE cfg) m in
  result (ctr_set_top_value api_DONT_RESET api_RESET_WHEN_LATE cfg) m = Ok
  /\ hw_target (hw m') = 140
  /\ callbacks (log counter_isr (advance_to 140 m'))
     = [EvTopCallback 1%positive 1 9]
  /\ callbacks (log counter_isr (advance_to 100 m')) = [].
Proof.
  intros cfg m m'.
  assert (Hticks : tc_ticks cfg <> TOP_VALUE) by (vm_compute; discriminate).
  pose proof (first_top_after_set_top_value
                api_DONT_RESET api_RESET_WHEN_LATE m cfg 1%positive
                eq_refl Hticks eq_refl) as (Htarget & Hfire & _ & _ & Hquiet).
  split; [reflexivity |]. split; [exact Htarget |]. split; [exact Hfire |].
  apply Hquiet. vm_compute. discriminate.
Defined.

Lemma alarm_delivered_at_tick_witness :
  let cfg := mk_alarm_cfg (Some 2%positive) 5 8 0 in
  let m := advance_to 10 started in
  let m' := state_after (ctr_set_alarm api_ABSOLUTE 0%N cfg) m in
  result (ctr_set_alarm api_ABSOLUTE 0%N cfg) m = Ok
  /\ alarm_callbacks (log counter_isr (advance_to 15 m'))
     = [EvAlarmCallback 2%positive 1 0%N 15 8]
  /\ alarm_callbacks (log counter_isr (advance_to 14 m')) = [].
Proof.
  intros cfg m m'.
  pose proof (alarm_delivered_at_tick api_ABSOLUTE m 0%N cfg 2%positive
                                      eq_refl eq_refl)
    as (Hfire & _ & Hquiet).
  split; [reflexivity |]. split; [exact Hfire |].
  refine (proj1 (Hquiet 14 _)). vm_compute. discriminate.
Defined.

Lemma cancel_alarm_effective_witness :
  let m1 := state_after (ctr_cancel_alarm 0%N) with_alarm_50 in
  is_alarm_pending (drv with_alarm_50) = true
  /\ hw_started (hw with_alarm_50) = true
  /\ alarm_callbacks (log counter_isr (advance_to 50 m1)) = []
  /\ hw_target (hw m1) = 50.
Proof.
  intros m1.
  pose proof (cancel_alarm_effective
                api_ABSOLUTE with_alarm_50 0%N
                (mk_alarm_cfg (Some 3%positive) 70 0 api_ABSOLUTE)
                eq_refl eq_refl) as (Hquiet & _ & _ & Htarget).
  split; [reflexivity |]. split; [reflexivity |].
  split; [exact (Hquiet 50) | exact Htarget].
Defined.

Lemma isr_spurious_is_noop_witness :
  let m := advance_to 7 with_top_and_alarm_100 in
  top_due 7 m = false
  /\ alarm_due 7 m = false
  /\ counter_isr m = (tt, m, []).
Proof.
  intros m.
  assert (Hv : hw_value (hw m) <> TOP_VALUE) by (vm_compute; discriminate).
  split; [reflexivity |]. split; [reflexivity |].
  exact (isr_spurious_is_noop m eq_refl eq_refl Hv).
Defined.

Lemma isr_frame_witness :
  let m' := state_after counter_isr at_rollover in
  top (drv m') = top (drv at_rollover)
  /\ is_alarm_pending (drv m') = true
  /\ is_alarm_pending (drv at_rollover) = true
  /\ hw_value (hw m') = 0.
Proof.
  intros m'.
  pose proof (isr_frame at_rollover)
    as (Htop & _ & _ & _ & _ & _ & _ & Hpend & Hval & _).
  split; [exact Htop |]. split; [reflexivity |].
  split; [exact (Hpend eq_refl) | exact Hval].
Defined.

Lemma top_periods_no_drift_witness :
  is_top_set (drv with_top_100) = true
  /\ is_alarm_pending (drv with_top_100) = false
  /\ last_top (drv with_top_100) = 0
  /\ last_top (drv (fst (top_periods 3 with_top_100))) = 300
  /\ callbacks (snd (top_periods 3 with_top_100))
     = [EvTopCallback 1%positive 1 0; EvTopCallback 1%positive 1 0;
        EvTopCallback 1%positive 1 0].
Proof.
  assert (Hrange : U32.in_range (last_top (drv with_top_100)))
    by (vm_compute; split; [discriminate | reflexivity]).
  pose proof (top_periods_no_drift 3 with_top_100 1%positive
                                   eq_refl eq_refl eq_refl Hrange)
    as (Hlast & _ & _ & Hcalls).
  split; [reflexivity |]. split; [reflexivity |]. split; [reflexivity |].
  split; [exact Hlast | exact Hcalls].
Defined.

Lemma stop_blocks_cancel_witness :
  (0 < DRIVER_CONFIG_INFO_CHANNELS)%N
  /\ result (ctr_cancel_alarm 0%N) (state_after ctr_stop with_alarm_50)
     = Err ENOTSUP
  /\ is_alarm_pending (drv (state_after ctr_stop with_alarm_50)) = true
  /\ result (ctr_cancel_alarm 0%N) (state_after ctr_start with_alarm_50) = Ok.
Proof.
  pose proof (stop_blocks_cancel with_alarm_50 0%N eq_refl)
    as (_ & _ & _ & _ & _ & _ & _ & _ & Hstop & _ & Hstart & _).
  split; [reflexivity |]. split; [exact Hstop |].
  split; [reflexivity | exact Hstart].
Defined.

Lemma reachable_top_is_usable_witness :
  let l := [DoStart; DoSetTopValue (mk_top_cfg 100 (Some 1%positive) 0 0);
            DoCount 100] in
  let m := do_actions api_DONT_RESET api_RESET_WHEN_LATE api_ABSOLUTE 1000000
                      l (state_after (ctr_init 1000000 1) boot) in
  top_due (hw_value (hw m)) m = true
  /\ tc_callback (top (drv m)) <> None
  /\ exists f, top_callbacks (log counter_isr m) = [EvTopCallback f 1 0].
Proof.
  intros l m.
  pose proof (reachable_top_is_usable
                api_DONT_RESET api_RESET_WHEN_LATE api_ABSOLUTE 1000000
                l boot 1) as [Husable Hfires].
  split; [reflexivity |].
  split; [exact (proj1 (Husable eq_refl)) | exact (Hfires eq_refl)].
Defined.

Lemma ticks_stay_in_range_witness :
  let l := [DoInit 1; DoStart;
            DoSetAlarm 0%N (mk_alarm_cfg (Some 2%positive) 50 0 0);
            DoCount TOP_VALUE; DoIsr] in
  ticks_in_range boot
  /\ Forall action_in_range l
  /\ ticks_in_range
       (do_actions api_DONT_RESET api_RESET_WHEN_LATE api_ABSOLUTE 1000000
                   l boot).
Proof.
  intros l.
  assert (Hboot : ticks_in_range boot)
    by (repeat split; vm_compute; first [discriminate | reflexivity]).
  assert (Hl : Forall action_in_range l)
    by (repeat constructor; vm_compute; first [discriminate | reflexivity]).
  split; [exact Hboot |]. split; [exact Hl |].
  exact (ticks_stay_in_range
           api_DONT_RESET api_RESET_WHEN_LATE api_ABSOLUTE 1000000
           l boot Hl Hboot).
Defined.

Lemma armed_implies_irq_enabled_witness :
  let l := [DoSetAlarm 0%N (mk_alarm_cfg (Some 2%positive) 50 0 api_ABSOLUTE)] in
  let m := do_actions api_DONT_RESET api_RESET_WHEN_LATE api_ABSOLUTE 1000000
                      l (state_after (ctr_init 1000000 1) boot) in
  irq_enabled (state_after (ctr_init 1000000 1) boot) = false
  /\ is_alarm_pending (drv m) = true
  /\ irq_enabled m = true.
Proof.
  intros l m.
  split; [reflexivity |]. split; [reflexivity |].
  exact (armed_implies_irq_enabled
           api_DONT_RESET api_RESET_WHEN_LATE api_ABSOLUTE 1000000
           l boot 1 (or_introl eq_refl)).
Defined.

Lemma relative_alarm_distance_witness :
  let cfg := mk_alarm_cfg (Some 2%positive) 5 0 0 in
  let m := advance_to (TOP_VALUE - 2) started in
  let m' := state_after (ctr_set_alarm api_ABSOLUTE 0%N cfg) m in
  result (ctr_set_alarm api_ABSOLUTE 0%N cfg) m = Ok
  /\ ac_ticks (pending_alarm (drv m')) = 2
  /\ dist (TOP_VALUE - 2) 2 = 5
  /\ hw_target (hw m') = TOP_VALUE.
Proof.
  intros cfg m m'.
  assert (Hd : U32.in_range (ac_ticks cfg))
    by (vm_compute; split; [discriminate | reflexivity]).
  pose proof (relative_alarm_distance api_ABSOLUTE m 0%N cfg
                                      eq_refl eq_refl Hd) as [Hdist Htarget].
  split; [reflexivity |]. split; [reflexivity |].
  split; [exact Hdist | exact Htarget].
Defined.
